(** * Manufacturing Website API: capability listing and inquiry submission

    A shallow embedding of [main.py] and [schemas.py].

    - Python values that a store document can hold are the type [value];
      a document is a [gmap string value] (a [dict] with [str] keys).
    - The [database] module is not part of the sources: its two functions
      are the methods of the class [DocumentStore], and every statement
      about [list_capabilities] and [create_inquiry] holds for all of its
      instances.  [MemStore] is one instance, used to run the handlers.
    - A handler is a function from the state of the [database] module to an
      outcome (a value or a raised exception), the new state of the module
      and the sequence of calls made to it. *)

From stdpp Require Import gmap strings list fin_maps pretty.
From Stdlib Require Import ZArith Ascii.

Set Warnings "-register-all".
Open Scope Z_scope.
Open Scope string_scope.

(** ** Python values *)

(** What the handlers can observe of a value stored in a document: whether
    it is [None], a [bool], an [int] or a [str], and otherwise (an
    [ObjectId], a [datetime], a nested container) its class and the result
    of [str()] on it. *)
Inductive value :=
| VNone
| VBool (b : bool)
| VInt (z : Z)
| VStr (s : string)
| VObject (cls : string) (repr : string).

#[global] Instance value_eq_dec : EqDecision value.
Proof. solve_decision. Defined.

(** [str(v)] *)
Definition py_str (v : value) : string :=
  match v with
  | VNone => "None"
  | VBool true => "True"
  | VBool false => "False"
  | VInt z => pretty z
  | VStr s => s
  | VObject _ r => r
  end.

(** An argument of [serialize_doc]: a [dict], or anything else. *)
Inductive pyobj :=
| ODict (d : gmap string value)
| OOther (v : value).

#[global] Instance pyobj_eq_dec : EqDecision pyobj.
Proof. solve_decision. Defined.

(** [s[:n]] on a [str]. *)
Fixpoint str_prefix (n : nat) (s : string) : string :=
  match n, s with
  | S n', String c s' => String c (str_prefix n' s')
  | _, _ => EmptyString
  end.

(** ** [serialize_doc] (main.py, lines 21-27) *)

Definition serialize_doc (doc : pyobj) : pyobj :=
  match doc with
  | ODict doc_d =>
      let d := doc_d in
      match d !! "_id" with
      | Some oid => ODict (<["id" := VStr (py_str oid)]> (delete "_id" d))
      | None => ODict d
      end
  | OOther _ => doc
  end.

(** ** Exceptions and outcomes *)

(** An exception raised inside the [database] module, seen through its
    class name and [str()]. *)
Record pyexc := { exc_class : string; exc_str : string }.

(** What a handler can raise (all are subclasses of [Exception]). *)
Inductive exn :=
| Raised (e : pyexc)
| ValidationError (title : string) (errors : list (string * string))
| TypeError_not_a_mapping (v : value)
| HTTPException (status_code : Z) (detail : string).

Inductive outcome (A : Type) :=
| Return (a : A)
| Raise (e : exn).
Arguments Return {A} a.
Arguments Raise {A} e.

(** ** schemas.py *)

Module Capability.
Record t := { name : string; summary : string; icon : option string }.
End Capability.

Module Inquiry.
Record t := {
  name : string;
  email : string;
  phone : option string;
  company : option string;
  message : string;
  service : option string
}.
End Inquiry.

(** Validation of one keyword argument by pydantic: a field declared [str]
    with [Field(...)] is required and takes a [str]; a field declared
    [Optional[str]] with [Field(None)] may be absent or [None]. *)
Definition validate_str (loc : string) (arg : option value)
  : list (string * string) + string :=
  match arg with
  | None => inl [(loc, "missing")]
  | Some (VStr s) => inr s
  | Some _ => inl [(loc, "string_type")]
  end.

Definition validate_optional_str (loc : string) (arg : option value)
  : list (string * string) + option string :=
  match arg with
  | None | Some VNone => inr None
  | Some (VStr s) => inr (Some s)
  | Some _ => inl [(loc, "string_type")]
  end.

Definition errors_of {A} (r : list (string * string) + A) : list (string * string) :=
  match r with inl es => es | inr _ => [] end.

(** The constructor of [Capability] applied to the keyword arguments
    [kwargs]: keys that are not fields are ignored, and the errors of all
    fields are reported together. *)
Definition Capability_init (kwargs : gmap string value) : outcome Capability.t :=
  let n := validate_str "name" (kwargs !! "name") in
  let s := validate_str "summary" (kwargs !! "summary") in
  let i := validate_optional_str "icon" (kwargs !! "icon") in
  match n, s, i with
  | inr n', inr s', inr i' =>
      Return {| Capability.name := n'; Capability.summary := s'; Capability.icon := i' |}
  | _, _, _ => Raise (ValidationError "Capability" (errors_of n ++ errors_of s ++ errors_of i))
  end.

(** The constructor of [Capability] applied to an arbitrary object [o]
    unpacked as keyword arguments: [o] has to be a mapping. *)
Definition Capability_unpack (o : pyobj) : outcome Capability.t :=
  match o with
  | ODict d => Capability_init d
  | OOther v => Raise (TypeError_not_a_mapping v)
  end.

(** A list comprehension whose element expression may raise: elements are
    evaluated from left to right and the first exception ends it. *)
Fixpoint comprehension {A B} (f : A -> outcome B) (l : list A) : outcome (list B) :=
  match l with
  | [] => Return []
  | x :: l' =>
      match f x with
      | Raise e => Raise e
      | Return y =>
          match comprehension f l' with
          | Raise e => Raise e
          | Return ys => Return (y :: ys)
          end
      end
  end.

(** ** The [database] module *)

(** The second argument of [create_document]: a [dict] (line 129) or a
    model instance (line 155). *)
Inductive document_data :=
| DictData (d : gmap string value)
| ModelData (payload : Inquiry.t).

(** The two functions that main.py imports from [database], over a store
    state [St].  Either may raise, and either may change the store. *)
Class DocumentStore (St : Type) := {
  get_documents : string -> St -> (pyexc + list pyobj) * St;
  create_document : string -> document_data -> St -> (pyexc + string) * St
}.

(** Calls made to the module, in order. *)
Inductive call :=
| GetDocuments (collection_name : string)
| CreateDocument (collection_name : string) (data : document_data).

(** What [from database import db, ...] finds: the import raises, or the
    module is loaded and [db] is [None] or a handle on a store. *)
Inductive Database (St : Type) :=
| Unloadable (e : pyexc)
| Loaded (db : option St).
Arguments Unloadable {St} e.
Arguments Loaded {St} db.

Definition import_database {St} (m : Database St) : pyexc + option St :=
  match m with
  | Unloadable e => inl e
  | Loaded db => inr db
  end.

(** ** Code that runs against a store *)

Record Session (St : Type) := { store : St; calls : list call }.
Arguments store {St} _.
Arguments calls {St} _.

(** A computation over the store that returns an [A] or raises an [E]. *)
Definition Db (St E A : Type) : Type := Session St -> (E + A) * Session St.

Section Db.
Context {St : Type} `{DocumentStore St}.

Definition ret {E A} (a : A) : Db St E A := fun σ => (inr a, σ).
Definition raise {E A} (e : E) : Db St E A := fun σ => (inl e, σ).

Definition bind {E A B} (c : Db St E A) (k : A -> Db St E B) : Db St E B :=
  fun σ =>
    match c σ with
    | (inl e, σ') => (inl e, σ')
    | (inr a, σ') => k a σ'
    end.

(** [try: c / except Exception as e: h e].  The store keeps whatever
    state [c] left it in. *)
Definition try_except {E E' A} (c : Db St E A) (h : E -> Db St E' A) : Db St E' A :=
  fun σ =>
    match c σ with
    | (inl e, σ') => h e σ'
    | (inr a, σ') => (inr a, σ')
    end.

(** An exception of the module that no handler catches propagates. *)
Definition propagate {A} (c : Db St pyexc A) : Db St exn A :=
  try_except c (fun e => raise (Raised e)).

Definition lift {A} (o : outcome A) : Db St exn A :=
  match o with
  | Return a => ret a
  | Raise e => raise e
  end.

Definition call_get_documents (collection_name : string) : Db St pyexc (list pyobj) :=
  fun σ =>
    let '(r, s') := get_documents collection_name (store σ) in
    (r, {| store := s'; calls := calls σ ++ [GetDocuments collection_name] |}).

Definition call_create_document (collection_name : string) (data : document_data)
  : Db St pyexc string :=
  fun σ =>
    let '(r, s') := create_document collection_name data (store σ) in
    (r, {| store := s'; calls := calls σ ++ [CreateDocument collection_name data] |}).

(** [for x in l: body x] *)
Fixpoint for_each {E A} (l : list A) (body : A -> Db St E unit) : Db St E unit :=
  match l with
  | [] => ret tt
  | x :: l' => bind (body x) (fun _ => for_each l' body)
  end.
End Db.

Notation "'let*' x ':=' c 'in' k" := (bind c (fun x => k))
  (at level 10, x pattern, c at level 100, k at level 200).

(** ** main.py: the handlers *)

(** The literal of lines 102-106, repeated at lines 109-113. *)
Definition static_capabilities : list Capability.t := [
  {| Capability.name := "CNC Machining";
     Capability.summary := "Precision milling and turning for metals and plastics";
     Capability.icon := Some "settings" |};
  {| Capability.name := "Sheet Metal Fabrication";
     Capability.summary := "Laser cutting, bending, and assembly for prototypes to production";
     Capability.icon := Some "square" |};
  {| Capability.name := "Welding";
     Capability.summary := "Certified MIG/TIG welding for structural and aesthetic parts";
     Capability.icon := Some "hammer" |}
].

Definition capability_dict (n s i : string) : gmap string value :=
  <["name" := VStr n]> (<["summary" := VStr s]> (<["icon" := VStr i]> ∅)).

(** The literal of lines 121-126. *)
Definition defaults : list (gmap string value) := [
  capability_dict "CNC Machining"
    "Precision milling and turning for metals and plastics" "settings";
  capability_dict "Sheet Metal Fabrication"
    "Laser cutting, bending, and assembly for prototypes to production" "square";
  capability_dict "Welding"
    "Certified MIG/TIG welding for structural and aesthetic parts" "hammer";
  capability_dict "Powder Coating"
    "Durable finishes with a wide range of colors and textures" "paintbrush"
].

Record InquiryResponse := { id : string; message : string }.

(** What a request leaves behind: the outcome for the caller, the state of
    the [database] module and the calls made to it. *)
Record Served (St A : Type) := {
  outcome_of : outcome A;
  database_of : Database St;
  calls_of : list call
}.
Arguments outcome_of {St A} _.
Arguments database_of {St A} _.
Arguments calls_of {St A} _.

Section Handlers.
Context {St : Type} `{DocumentStore St}.

(** A handler that found no store: nothing was called. *)
Definition without_store {A} (m : Database St) (o : outcome A) : Served St A :=
  {| outcome_of := o; database_of := m; calls_of := [] |}.

(** A handler body run on the store behind [db]. *)
Definition with_store {A} (s : St) (body : Db St exn A) : Served St A :=
  let '(r, σ) := body {| store := s; calls := [] |} in
  {| outcome_of := match r with inl e => Raise e | inr a => Return a end;
     database_of := Loaded (Some (store σ));
     calls_of := calls σ |}.

(** Lines 116-117 and 132-133. *)
Definition read_items : Db St exn (list Capability.t) :=
  let* docs := propagate (call_get_documents "capability") in
  lift (comprehension (fun d => Capability_unpack (serialize_doc d)) docs).

(** Lines 127-131. *)
Definition seed_defaults : Db St exn unit :=
  for_each defaults (fun d =>
    try_except
      (let* _ := call_create_document "capability" (DictData d) in ret tt)
      (fun _ => ret tt)).

(** Lines 96-135. *)
Definition list_capabilities (m : Database St) : Served St (list Capability.t) :=
  match import_database m with
  | inl _ => without_store m (Return static_capabilities)
  | inr None => without_store m (Return static_capabilities)
  | inr (Some s) =>
      with_store s
        (let* items := read_items in
         if decide (length items = 0%nat) then
           let* _ := seed_defaults in
           let* items := read_items in
           ret items
         else ret items)
  end.

(** Lines 144-158. *)
Definition create_inquiry (payload : Inquiry.t) (m : Database St)
  : Served St InquiryResponse :=
  match import_database m with
  | inl _ => without_store m (Raise (HTTPException 503 "Database not configured"))
  | inr None => without_store m (Raise (HTTPException 503 "Database not available"))
  | inr (Some s) =>
      with_store s
        (try_except
           (let* inserted_id := call_create_document "inquiry" (ModelData payload) in
            ret {| id := inserted_id;
                   message := "Inquiry received. Our team will contact you shortly." |})
           (fun e => raise (HTTPException 500
                              ("Failed to save inquiry: " ++ str_prefix 120 (exc_str e)))))
  end.
End Handlers.

(** ** An in-memory document store *)

(** Modelled from the spec: the [database] module ([db], [get_documents],
    [create_document]) is not among the sources.  The spec describes a
    persistent document store that is queried by record type, returns the
    records of a type in insertion order, assigns an identifier to every
    inserted record, and whose operations may fail.  [MemStore] keeps the
    documents of each collection in insertion order, numbers the inserted
    documents, and fails as its script [faults] says: every operation takes
    the head of the script, raises it when it is an exception, and succeeds
    otherwise (also when the script is exhausted). *)
Record MemStore := {
  collections : gmap string (list (gmap string value));
  next_id : nat;
  faults : list (option pyexc)
}.

Definition documents (collection_name : string) (st : MemStore) : list (gmap string value) :=
  default [] (collections st !! collection_name).

Definition optional_value (o : option string) : value :=
  match o with
  | Some s => VStr s
  | None => VNone
  end.

(** [payload.model_dump()] *)
Definition model_dump (p : Inquiry.t) : gmap string value :=
  <["name" := VStr (Inquiry.name p)]>
  (<["email" := VStr (Inquiry.email p)]>
  (<["phone" := optional_value (Inquiry.phone p)]>
  (<["company" := optional_value (Inquiry.company p)]>
  (<["message" := VStr (Inquiry.message p)]>
  (<["service" := optional_value (Inquiry.service p)]> ∅))))).

Definition data_dict (data : document_data) : gmap string value :=
  match data with
  | DictData d => d
  | ModelData p => model_dump p
  end.

Definition object_id (n : nat) : string := pretty n.

Definition mem_get_documents (collection_name : string) (st : MemStore)
  : (pyexc + list pyobj) * MemStore :=
  let st' := {| collections := collections st; next_id := next_id st;
                faults := tail (faults st) |} in
  match faults st with
  | Some e :: _ => (inl e, st')
  | _ => (inr (ODict <$> documents collection_name st), st')
  end.

Definition mem_create_document (collection_name : string) (data : document_data)
    (st : MemStore) : (pyexc + string) * MemStore :=
  match faults st with
  | Some e :: fs =>
      (inl e, {| collections := collections st; next_id := next_id st; faults := fs |})
  | _ =>
      let oid := object_id (next_id st) in
      let doc := <["_id" := VObject "ObjectId" oid]> (data_dict data) in
      (inr oid,
       {| collections :=
            <[collection_name := (documents collection_name st ++ [doc])%list]> (collections st);
          next_id := S (next_id st);
          faults := tail (faults st) |})
  end.

#[global] Instance MemStore_DocumentStore : DocumentStore MemStore := {
  get_documents := mem_get_documents;
  create_document := mem_create_document
}.

(** The stored documents of a collection whose identifier prints as [i]. *)
Definition documents_with_id (collection_name i : string) (st : MemStore)
  : list (gmap string value) :=
  filter (fun d => d !! "_id" = Some (VObject "ObjectId" i)) (documents collection_name st).

(** Identifiers in use were all assigned by the store. *)
Definition ids_assigned (st : MemStore) : Prop :=
  forall c docs d, collections st !! c = Some docs -> d ∈ docs ->
    exists k, (k < next_id st)%nat /\ d !! "_id" = Some (VObject "ObjectId" (object_id k)).

Definition empty_store (fs : list (option pyexc)) : MemStore :=
  {| collections := ∅; next_id := 0; faults := fs |}.

(** ** schemas.py as data, and [get_schema] *)

Inductive json :=
| JNull
| JBool (b : bool)
| JNumber (z : Z)
| JString (s : string)
| JArray (items : list json)
| JObject (members : list (string * json)).

Definition json_get (key : string) (j : json) : option json :=
  match j with
  | JObject members => snd <$> find (fun m => String.eqb (fst m) key) members
  | _ => None
  end.

Definition json_keys (j : json) : list string :=
  match j with
  | JObject members => fst <$> members
  | _ => []
  end.

(** The annotation of a field. *)
Inductive annotation :=
| Str
| EmailStr
| Int
| Float
| Bool
| Optional (a : annotation).

(** The first argument of [Field]: [...] marks a required field. *)
Inductive field_default :=
| Ellipsis
| DefaultNone
| DefaultBool (b : bool).

Record FieldInfo := {
  field_name : string;
  field_annotation : annotation;
  field_default_value : field_default;
  field_ge : option Z;
  field_le : option Z;
  field_description : string
}.

Record ModelClass := {
  class_name : string;
  class_doc : string;
  class_fields : list FieldInfo
}.

Definition Field (n : string) (a : annotation) (d : field_default) (ge le : option Z)
    (description : string) : FieldInfo :=
  {| field_name := n; field_annotation := a; field_default_value := d;
     field_ge := ge; field_le := le; field_description := description |}.

Definition newline : string := String (ascii_of_nat 10) EmptyString.
Definition quoted (s : string) : string :=
  String (ascii_of_nat 34) s ++ String (ascii_of_nat 34) EmptyString.

(** Lines 19-28. *)
Definition User : ModelClass := {|
  class_name := "User";
  class_doc := "Users collection schema" ++ newline ++
               "Collection name: " ++ quoted "user" ++ " (lowercase of class name)";
  class_fields := [
    Field "name" Str Ellipsis None None "Full name";
    Field "email" EmailStr Ellipsis None None "Email address";
    Field "address" Str Ellipsis None None "Address";
    Field "age" (Optional Int) DefaultNone (Some 0) (Some 120) "Age in years";
    Field "is_active" Bool (DefaultBool true) None None "Whether user is active"
  ]
|}.

(** Lines 30-39. *)
Definition Product : ModelClass := {|
  class_name := "Product";
  class_doc := "Products collection schema" ++ newline ++
               "Collection name: " ++ quoted "product" ++ " (lowercase of class name)";
  class_fields := [
    Field "title" Str Ellipsis None None "Product title";
    Field "description" (Optional Str) DefaultNone None None "Product description";
    Field "price" Float Ellipsis (Some 0) None "Price in dollars";
    Field "category" Str Ellipsis None None "Product category";
    Field "in_stock" Bool (DefaultBool true) None None "Whether product is in stock"
  ]
|}.

(** Lines 41-47. *)
Definition Capability : ModelClass := {|
  class_name := "Capability";
  class_doc := "Manufacturing capability or service offered" ++ newline ++
               "Collection name: " ++ quoted "capability";
  class_fields := [
    Field "name" Str Ellipsis None None "Capability name, e.g. CNC Machining";
    Field "summary" Str Ellipsis None None "Short description of the capability";
    Field "icon" (Optional Str) DefaultNone None None "Optional icon name for UI"
  ]
|}.

(** Lines 49-58. *)
Definition Inquiry : ModelClass := {|
  class_name := "Inquiry";
  class_doc := "Contact/quote inquiry from website visitors" ++ newline ++
               "Collection name: " ++ quoted "inquiry";
  class_fields := [
    Field "name" Str Ellipsis None None "Sender name";
    Field "email" EmailStr Ellipsis None None "Sender email";
    Field "phone" (Optional Str) DefaultNone None None "Phone number";
    Field "company" (Optional Str) DefaultNone None None "Company name";
    Field "message" Str Ellipsis None None "Message or project details";
    Field "service" (Optional Str) DefaultNone None None "Requested service/capability"
  ]
|}.

(** *** [model_json_schema] of pydantic *)

Definition is_lower (c : ascii) : bool :=
  let n := nat_of_ascii c in (97 <=? n)%nat && (n <=? 122)%nat.
Definition is_upper (c : ascii) : bool :=
  let n := nat_of_ascii c in (65 <=? n)%nat && (n <=? 90)%nat.
Definition upper (c : ascii) : ascii :=
  if is_lower c then ascii_of_nat (nat_of_ascii c - 32) else c.
Definition lower (c : ascii) : ascii :=
  if is_upper c then ascii_of_nat (nat_of_ascii c + 32) else c.

(** [s.title()]: a letter is upper-cased after a non-letter and lower-cased
    after a letter. *)
Fixpoint str_title (after_letter : bool) (s : string) : string :=
  match s with
  | EmptyString => EmptyString
  | String c s' =>
      let letter := is_lower c || is_upper c in
      String (if after_letter then lower c else upper c) (str_title letter s')
  end.

(** [s.replace('_', ' ')] *)
Fixpoint underscores_to_spaces (s : string) : string :=
  match s with
  | EmptyString => EmptyString
  | String c s' =>
      String (if Ascii.eqb c (ascii_of_nat 95) then ascii_of_nat 32 else c)
             (underscores_to_spaces s')
  end.

Definition field_title (n : string) : string :=
  underscores_to_spaces (str_title false n).

Definition json_type_name (a : annotation) : string :=
  match a with
  | Str | EmailStr => "string"
  | Int => "integer"
  | Float => "number"
  | Bool => "boolean"
  | Optional _ => "null"
  end.

(** The members that describe the type itself, less ["type"]. *)
Definition constraint_members (a : annotation) (f : FieldInfo) : list (string * json) :=
  (match a with EmailStr => [("format", JString "email")] | _ => [] end ++
   match field_le f with Some z => [("maximum", JNumber z)] | None => [] end ++
   match field_ge f with Some z => [("minimum", JNumber z)] | None => [] end)%list.

Definition default_members (f : FieldInfo) : list (string * json) :=
  match field_default_value f with
  | Ellipsis => []
  | DefaultNone => [("default", JNull)]
  | DefaultBool b => [("default", JBool b)]
  end.

(** The schema of one field, with its members in alphabetical order. *)
Definition field_schema (f : FieldInfo) : json :=
  let described := [("description", JString (field_description f))] in
  let titled := [("title", JString (field_title (field_name f)))] in
  match field_annotation f with
  | Optional a =>
      JObject ([("anyOf", JArray [
                   JObject (constraint_members a f ++ [("type", JString (json_type_name a))]);
                   JObject [("type", JString "null")]])]
               ++ default_members f ++ described ++ titled)%list
  | a =>
      JObject (default_members f ++ described ++ constraint_members a f ++ titled
               ++ [("type", JString (json_type_name a))])%list
  end.

Definition is_required (f : FieldInfo) : bool :=
  match field_default_value f with
  | Ellipsis => true
  | _ => false
  end.

Definition required_fields (c : ModelClass) : list string :=
  field_name <$> filter (fun f => is_required f = true) (class_fields c).

Definition optional_fields (c : ModelClass) : list string :=
  field_name <$> filter (fun f => is_required f = false) (class_fields c).

Definition model_json_schema (c : ModelClass) : json :=
  JObject ([("description", JString (class_doc c));
            ("properties",
             JObject ((fun f => (field_name f, field_schema f)) <$> class_fields c))]
           ++ match required_fields c with
              | [] => []
              | names => [("required", JArray (JString <$> names))]
              end
           ++ [("title", JString (class_name c)); ("type", JString "object")])%list.

(** Lines 84-91. *)
Definition get_schema : json :=
  JObject [
    ("user", model_json_schema User);
    ("product", model_json_schema Product);
    ("capability", model_json_schema Capability);
    ("inquiry", model_json_schema Inquiry)
  ].

(** ** Sample states of the store *)

Definition connection_lost : pyexc :=
  {| exc_class := "ServerSelectionTimeoutError"; exc_str := "localhost:27017: connection refused" |}.

Definition welding : Capability.t :=
  {| Capability.name := "Welding";
     Capability.summary := "Certified MIG/TIG welding for structural and aesthetic parts";
     Capability.icon := Some "hammer" |}.

Definition welding_record : gmap string value :=
  <["_id" := VObject "ObjectId" (object_id 0)]>
    (capability_dict "Welding"
       "Certified MIG/TIG welding for structural and aesthetic parts" "hammer").

Definition store_with_welding : MemStore :=
  {| collections := {["capability" := [welding_record]]}; next_id := 1; faults := [] |}.

Definition sample_inquiry : Inquiry.t :=
  {| Inquiry.name := "Ada"; Inquiry.email := "ada@example.com";
     Inquiry.phone := None; Inquiry.company := Some "Analytical Engines";
     Inquiry.message := "Quote for 40 brackets"; Inquiry.service := Some "Welding" |}.

Definition powder_coating : Capability.t :=
  {| Capability.name := "Powder Coating";
     Capability.summary := "Durable finishes with a wide range of colors and textures";
     Capability.icon := Some "paintbrush" |}.

(** A message of 154 characters. *)
Definition long_message : string :=
  "E11000 duplicate key error collection: site.inquiry index: email_1 dup key: " ++
  "{ email: ada@example.com }, full error: { index: 0, code: 11000, errmsg: ... }".

Definition duplicate_key : pyexc :=
  {| exc_class := "DuplicateKeyError"; exc_str := long_message |}.

(** ** Notions used in the statements *)

(** A document that holds the fields of the capability [c]; it may hold
    other keys as well (["_id"], timestamps). *)
Definition capability_record (doc : pyobj) (c : Capability.t) : Prop :=
  exists d, doc = ODict d /\
    d !! "name" = Some (VStr (Capability.name c)) /\
    d !! "summary" = Some (VStr (Capability.summary c)) /\
    match Capability.icon c with
    | Some i => d !! "icon" = Some (VStr i)
    | None => d !! "icon" = None \/ d !! "icon" = Some VNone
    end.

Section Seeding.
Context {St : Type} `{DocumentStore St}.

(** The store after the seeding loop: every default is passed to
    [create_document] in turn, whatever the earlier calls did. *)
Definition seeded (s : St) : St :=
  foldl (fun s d => snd (create_document "capability" (DictData d) s)) s defaults.

Definition seed_calls : list call :=
  (fun d => CreateDocument "capability" (DictData d)) <$> defaults.
End Seeding.

(** ** main.py: [test_database] (lines 40-80) *)

(** What [test_database] uses of the handle [db]: its attribute [name],
    when it has one, and its method [list_collection_names], which may
    raise. *)
Class DatabaseHandle (St : Type) := {
  db_name : St -> option string;
  list_collection_names : St -> (pyexc + list string) * St
}.

(** The dictionary [response].  The string literals of the source are held
    as their UTF-8 bytes; the handler never looks inside them. *)
Module Diagnostics.
Record t := {
  backend : string;
  database : string;
  database_url : option string;
  database_name : option string;
  connection_status : string;
  collections : list string
}.
End Diagnostics.

(** [response[key] = v], one function for each key that is assigned. *)
Definition set_database (v : string) (r : Diagnostics.t) : Diagnostics.t :=
  {| Diagnostics.backend := Diagnostics.backend r;
     Diagnostics.database := v;
     Diagnostics.database_url := Diagnostics.database_url r;
     Diagnostics.database_name := Diagnostics.database_name r;
     Diagnostics.connection_status := Diagnostics.connection_status r;
     Diagnostics.collections := Diagnostics.collections r |}.

Definition set_database_url (v : string) (r : Diagnostics.t) : Diagnostics.t :=
  {| Diagnostics.backend := Diagnostics.backend r;
     Diagnostics.database := Diagnostics.database r;
     Diagnostics.database_url := Some v;
     Diagnostics.database_name := Diagnostics.database_name r;
     Diagnostics.connection_status := Diagnostics.connection_status r;
     Diagnostics.collections := Diagnostics.collections r |}.

Definition set_database_name (v : string) (r : Diagnostics.t) : Diagnostics.t :=
  {| Diagnostics.backend := Diagnostics.backend r;
     Diagnostics.database := Diagnostics.database r;
     Diagnostics.database_url := Diagnostics.database_url r;
     Diagnostics.database_name := Some v;
     Diagnostics.connection_status := Diagnostics.connection_status r;
     Diagnostics.collections := Diagnostics.collections r |}.

Definition set_connection_status (v : string) (r : Diagnostics.t) : Diagnostics.t :=
  {| Diagnostics.backend := Diagnostics.backend r;
     Diagnostics.database := Diagnostics.database r;
     Diagnostics.database_url := Diagnostics.database_url r;
     Diagnostics.database_name := Diagnostics.database_name r;
     Diagnostics.connection_status := v;
     Diagnostics.collections := Diagnostics.collections r |}.

Definition set_collections (v : list string) (r : Diagnostics.t) : Diagnostics.t :=
  {| Diagnostics.backend := Diagnostics.backend r;
     Diagnostics.database := Diagnostics.database r;
     Diagnostics.database_url := Diagnostics.database_url r;
     Diagnostics.database_name := Diagnostics.database_name r;
     Diagnostics.connection_status := Diagnostics.connection_status r;
     Diagnostics.collections := v |}.

(** Lines 43-50. *)
Definition initial_response : Diagnostics.t :=
  {| Diagnostics.backend := "✅ Running";
     Diagnostics.database := "❌ Not Available";
     Diagnostics.database_url := None;
     Diagnostics.database_name := None;
     Diagnostics.connection_status := "Not Connected";
     Diagnostics.collections := [] |}.

(** [except ImportError] takes [ImportError] and its subclass
    [ModuleNotFoundError]. *)
Definition is_ImportError (e : pyexc) : bool :=
  bool_decide (exc_class e = "ImportError")
  || bool_decide (exc_class e = "ModuleNotFoundError").

(** The truth value of [os.getenv(key)]: false for an unset variable and
    for the empty string. *)
Definition truthy (o : option string) : bool :=
  match o with
  | Some (String _ _) => true
  | _ => false
  end.

Section TestDatabase.
Context {St : Type} `{DatabaseHandle St}.

(** Lines 55-68: the branch taken once the import has succeeded. *)
Definition probe_database (db : option St) (response : Diagnostics.t)
  : Diagnostics.t * option St :=
  match db with
  | Some handle =>
      let response := set_database "✅ Available" response in
      let response := set_database_url "✅ Configured" response in
      let response :=
        set_database_name
          (match db_name handle with Some n => n | None => "✅ Connected" end) response in
      let response := set_connection_status "Connected" response in
      match list_collection_names handle with
      | (inr collections, handle') =>
          let response := set_collections (take 10 collections) response in
          (set_database "✅ Connected & Working" response, Some handle')
      | (inl e, handle') =>
          (set_database ("⚠️  Connected but Error: " ++ str_prefix 50 (exc_str e)) response,
           Some handle')
      end
  | None => (set_database "⚠️  Available but not initialized" response, None)
  end.

(** Lines 41-80.  [environ] is the environment of the process. *)
Definition test_database (m : Database St) (environ : gmap string string)
  : Diagnostics.t * Database St :=
  let response := initial_response in
  let '(response, m') :=
    match import_database m with
    | inr db =>
        let '(response, db') := probe_database db response in
        (response, Loaded db')
    | inl e =>
        if is_ImportError e
        then (set_database "❌ Database module not found (run enable-database first)" response, m)
        else (set_database ("❌ Error: " ++ str_prefix 50 (exc_str e)) response, m)
    end in
  let response :=
    set_database_url
      (if truthy (environ !! "DATABASE_URL") then "✅ Set" else "❌ Not Set") response in
  let response :=
    set_database_name
      (if truthy (environ !! "DATABASE_NAME") then "✅ Set" else "❌ Not Set") response in
  (response, m').
End TestDatabase.

(** A handle that answers from a table: its name and what listing its
    collections gives. *)
Record TableHandle := {
  table_name : option string;
  table_listing : pyexc + list string
}.

#[global] Instance TableHandle_DatabaseHandle : DatabaseHandle TableHandle := {
  db_name := table_name;
  list_collection_names := fun h => (table_listing h, h)
}.

(** * Properties *)

(** ** Strings *)

Lemma str_prefix_length n s : (String.length (str_prefix n s) <= n)%nat.
Proof.
  revert s. induction n as [|n IH]; intros [|c s]; simpl; try lia.
  specialize (IH s). lia.
Qed.

Lemma str_prefix_length_min n s :
  String.length (str_prefix n s) = Nat.min n (String.length s).
Proof.
  revert s. induction n as [|n IH]; intros [|c s]; simpl; try done.
  by rewrite IH.
Qed.

Lemma str_prefix_is_prefix n s : exists rest, s = str_prefix n s ++ rest.
Proof.
  revert s. induction n as [|n IH]; intros s.
  - exists s. by destruct s.
  - destruct s as [|c s]; [by exists ""|].
    destruct (IH s) as [rest Hrest]. exists rest.
    change (String c s = String c (str_prefix n s ++ rest)). by rewrite <- Hrest.
Qed.

Lemma str_prefix_short n s : (String.length s <= n)%nat -> str_prefix n s = s.
Proof.
  revert s. induction n as [|n IH]; intros [|c s]; simpl; intros Hlen; try done; try lia.
  rewrite IH; [done | lia].
Qed.

(** ** Documents and capability records *)

Lemma serialize_doc_other_keys (d : gmap string value) k :
  k <> "_id" -> k <> "id" ->
  exists d', serialize_doc (ODict d) = ODict d' /\ d' !! k = d !! k.
Proof.
  intros Hk1 Hk2. unfold serialize_doc.
  destruct (d !! "_id") as [oid|]; eexists; split; try reflexivity.
  rewrite lookup_insert_ne by done. by rewrite lookup_delete_ne.
Qed.

Lemma serialize_doc_dict (d : gmap string value) :
  exists d', serialize_doc (ODict d) = ODict d' /\
    d' !! "name" = d !! "name" /\ d' !! "summary" = d !! "summary" /\
    d' !! "icon" = d !! "icon".
Proof.
  unfold serialize_doc.
  destruct (d !! "_id") as [oid|]; eexists; (split; [reflexivity|]); [|done].
  rewrite !lookup_insert_ne by done. by rewrite !lookup_delete_ne by done.
Qed.

Lemma capability_record_unpack doc c :
  capability_record doc c -> Capability_unpack (serialize_doc doc) = Return c.
Proof.
  intros (d & -> & Hn & Hs & Hi).
  destruct (serialize_doc_dict d) as (d' & -> & Hn' & Hs' & Hi').
  unfold Capability_unpack, Capability_init. rewrite Hn', Hs', Hi', Hn, Hs.
  destruct c as [n s [i|]]; simpl in *.
  - by rewrite Hi.
  - by destruct Hi as [-> | ->].
Qed.

Lemma stored_capability_record n s i oid :
  capability_record (ODict (<["_id" := oid]> (capability_dict n s i)))
    {| Capability.name := n; Capability.summary := s; Capability.icon := Some i |}.
Proof.
  eexists. split; [reflexivity|]. unfold capability_dict. simpl.
  repeat split; by simplify_map_eq.
Qed.

Lemma comprehension_Forall2 {A B} (f : A -> outcome B) l l' :
  Forall2 (fun x y => f x = Return y) l l' -> comprehension f l = Return l'.
Proof. induction 1 as [|x y l l' Hxy _ IH]; simpl; [done|]. by rewrite Hxy, IH. Qed.

Lemma comprehension_length {A B} (f : A -> outcome B) l l' :
  comprehension f l = Return l' -> length l' = length l.
Proof.
  revert l'. induction l as [|x l IH]; simpl; intros l' Hl.
  - by inversion Hl.
  - destruct (f x); [|done]. destruct (comprehension f l) as [ys|]; [|done].
    inversion Hl; subst. simpl. by rewrite (IH ys).
Qed.

Lemma capability_records_read docs caps :
  Forall2 capability_record docs caps ->
  comprehension (fun d => Capability_unpack (serialize_doc d)) docs = Return caps.
Proof.
  intros Hrec. apply comprehension_Forall2.
  eapply Forall2_impl; [exact Hrec|]. intros d c. apply capability_record_unpack.
Qed.

(** ** The handlers over an arbitrary store *)

Section HandlerFacts.
Context {St : Type} `{DocumentStore St}.

Lemma read_items_returns σ docs s' caps :
  get_documents "capability" (store σ) = (inr docs, s') ->
  comprehension (fun d => Capability_unpack (serialize_doc d)) docs = Return caps ->
  read_items σ
  = (inr caps, {| store := s'; calls := calls σ ++ [GetDocuments "capability"] |}).
Proof.
  intros Hget Hcaps.
  unfold read_items, bind, propagate, try_except, call_get_documents.
  by rewrite Hget, Hcaps.
Qed.

Lemma read_items_query_raises σ e s' :
  get_documents "capability" (store σ) = (inl e, s') ->
  read_items σ
  = (inl (Raised e), {| store := s'; calls := calls σ ++ [GetDocuments "capability"] |}).
Proof.
  intros Hget.
  unfold read_items, bind, propagate, try_except, call_get_documents.
  by rewrite Hget.
Qed.

Lemma read_items_invalid_record σ docs s' e :
  get_documents "capability" (store σ) = (inr docs, s') ->
  comprehension (fun d => Capability_unpack (serialize_doc d)) docs = Raise e ->
  read_items σ
  = (inl e, {| store := s'; calls := calls σ ++ [GetDocuments "capability"] |}).
Proof.
  intros Hget Hcaps.
  unfold read_items, bind, propagate, try_except, call_get_documents.
  by rewrite Hget, Hcaps.
Qed.

Lemma seed_loop (l : list (gmap string value)) σ :
  for_each (E:=exn) l (fun d =>
    try_except
      (let* _ := call_create_document "capability" (DictData d) in ret tt)
      (fun _ => ret tt)) σ
  = (inr tt,
     {| store := foldl (fun s d => snd (create_document "capability" (DictData d) s))
                       (store σ) l;
        calls := calls σ ++ ((fun d => CreateDocument "capability" (DictData d)) <$> l) |}).
Proof.
  revert σ. induction l as [|d l IH]; intros [s cs]; simpl.
  - unfold ret. by rewrite app_nil_r.
  - unfold bind at 1. unfold try_except at 1. unfold bind at 1.
    unfold call_create_document at 1. simpl.
    destruct (create_document "capability" (DictData d) s) as [[e|i] s1]; simpl;
      rewrite IH; simpl; by rewrite <- app_assoc.
Qed.

Lemma seed_defaults_runs σ :
  seed_defaults σ
  = (inr tt, {| store := seeded (store σ); calls := calls σ ++ seed_calls |}).
Proof. apply seed_loop. Qed.
End HandlerFacts.

Section HandlerTheorems.
Context {St : Type} `{DocumentStore St}.

Lemma list_capabilities_with_store s body_result :
  (let* items := read_items in
   if decide (length items = 0%nat) then
     let* _ := seed_defaults in
     let* items := read_items in
     ret items
   else ret items) {| store := s; calls := [] |} = body_result ->
  list_capabilities (Loaded (Some s))
  = {| outcome_of := match fst body_result with inl e => Raise e | inr a => Return a end;
       database_of := Loaded (Some (store (snd body_result)));
       calls_of := calls (snd body_result) |}.
Proof. intros <-. unfold list_capabilities, with_store. simpl. by destruct (bind _ _ _). Qed.

(** C2. When the import of the store module raises, or [db] is [None],
    [list_capabilities] returns exactly the three static capabilities
    (CNC Machining, Sheet Metal Fabrication, Welding, with their literal
    summaries and icons); it raises nothing and calls nothing. *)
Theorem list_capabilities_static_fallback :
  forall m : Database St,
    (exists e, m = Unloadable e) \/ m = Loaded None ->
    list_capabilities m
    = {| outcome_of := Return [
           {| Capability.name := "CNC Machining";
              Capability.summary := "Precision milling and turning for metals and plastics";
              Capability.icon := Some "settings" |};
           {| Capability.name := "Sheet Metal Fabrication";
              Capability.summary :=
                "Laser cutting, bending, and assembly for prototypes to production";
              Capability.icon := Some "square" |};
           {| Capability.name := "Welding";
              Capability.summary :=
                "Certified MIG/TIG welding for structural and aesthetic parts";
              Capability.icon := Some "hammer" |} ];
         database_of := m;
         calls_of := [] |}.
Proof.
  intros m [[e ->] | ->]; reflexivity.
Qed.

Lemma existing_records_served s docs s' caps :
  get_documents "capability" s = (inr docs, s') ->
  docs <> [] ->
  Forall2 capability_record docs caps ->
  list_capabilities (Loaded (Some s))
  = {| outcome_of := Return caps;
       database_of := Loaded (Some s');
       calls_of := [GetDocuments "capability"] |}.
Proof.
  intros Hget Hne Hrec.
  rewrite (list_capabilities_with_store s
             (inr caps, {| store := s'; calls := [GetDocuments "capability"] |}));
    [reflexivity|].
  unfold bind at 1.
  rewrite (read_items_returns {| store := s; calls := [] |} docs s' caps Hget
             (capability_records_read _ _ Hrec)).
  destruct (decide (length caps = 0%nat)) as [Hlen|_]; [|reflexivity].
  apply Forall2_length in Hrec. destruct docs; [done|]. simpl in Hrec. lia.
Qed.

Lemma empty_store_seeded s s1 docs s2 caps :
  get_documents "capability" s = (inr [], s1) ->
  get_documents "capability" (seeded s1) = (inr docs, s2) ->
  Forall2 capability_record docs caps ->
  list_capabilities (Loaded (Some s))
  = {| outcome_of := Return caps;
       database_of := Loaded (Some s2);
       calls_of := [GetDocuments "capability"] ++ seed_calls ++ [GetDocuments "capability"] |}.
Proof.
  intros Hget1 Hget2 Hrec.
  rewrite (list_capabilities_with_store s
             (inr caps, {| store := s2;
                           calls := ([GetDocuments "capability"] ++ seed_calls)
                                    ++ [GetDocuments "capability"] |}));
    [reflexivity|].
  unfold bind at 1.
  rewrite (read_items_returns {| store := s; calls := [] |} [] s1 [] Hget1 eq_refl). simpl.
  unfold bind at 1. rewrite seed_defaults_runs. simpl.
  unfold bind at 1.
  rewrite (read_items_returns {| store := seeded s1; calls := _ |} docs s2 caps Hget2
             (capability_records_read _ _ Hrec)).
  reflexivity.
Qed.

(** C4. With a valid handle and a store whose capability query yields
    at least one capability record, [list_capabilities] returns the
    capabilities of these records in the order of the query, and its only
    call to the store is that one query: nothing is inserted. *)
Theorem list_capabilities_existing_records s docs s' caps :
  get_documents "capability" s = (inr docs, s') ->
  docs <> [] ->
  Forall2 capability_record docs caps ->
  list_capabilities (Loaded (Some s))
  = {| outcome_of := Return caps;
       database_of := Loaded (Some s');
       calls_of := [GetDocuments "capability"] |}.
Proof. apply existing_records_served. Qed.

(** C5. With a valid handle and an empty capability query,
    [list_capabilities] passes the four defaults (CNC Machining, Sheet
    Metal Fabrication, Welding, Powder Coating) to [create_document] one
    after the other, going on after an insert that raises and keeping the
    store as each call left it, then queries again and returns the
    capabilities of the records that this second query yields, whether
    there are any or not. *)
Theorem list_capabilities_seeds_empty_store s s1 docs s2 caps :
  get_documents "capability" s = (inr [], s1) ->
  get_documents "capability" (seeded s1) = (inr docs, s2) ->
  Forall2 capability_record docs caps ->
  list_capabilities (Loaded (Some s))
  = {| outcome_of := Return caps;
       database_of := Loaded (Some s2);
       calls_of :=
         [GetDocuments "capability";
          CreateDocument "capability" (DictData (capability_dict "CNC Machining"
            "Precision milling and turning for metals and plastics" "settings"));
          CreateDocument "capability" (DictData (capability_dict "Sheet Metal Fabrication"
            "Laser cutting, bending, and assembly for prototypes to production" "square"));
          CreateDocument "capability" (DictData (capability_dict "Welding"
            "Certified MIG/TIG welding for structural and aesthetic parts" "hammer"));
          CreateDocument "capability" (DictData (capability_dict "Powder Coating"
            "Durable finishes with a wide range of colors and textures" "paintbrush"));
          GetDocuments "capability"] |}
  /\ seeded s1
     = snd (create_document "capability" (DictData (capability_dict "Powder Coating"
         "Durable finishes with a wide range of colors and textures" "paintbrush"))
       (snd (create_document "capability" (DictData (capability_dict "Welding"
         "Certified MIG/TIG welding for structural and aesthetic parts" "hammer"))
       (snd (create_document "capability" (DictData (capability_dict "Sheet Metal Fabrication"
         "Laser cutting, bending, and assembly for prototypes to production" "square"))
       (snd (create_document "capability" (DictData (capability_dict "CNC Machining"
         "Precision milling and turning for metals and plastics" "settings")) s1))))))).
Proof.
  intros Hget1 Hget2 Hrec. split; [|reflexivity].
  exact (empty_store_seeded s s1 docs s2 caps Hget1 Hget2 Hrec).
Qed.

Lemma list_capabilities_query_raises s e s' :
  get_documents "capability" s = (inl e, s') ->
  list_capabilities (Loaded (Some s))
  = {| outcome_of := Raise (Raised e);
       database_of := Loaded (Some s');
       calls_of := [GetDocuments "capability"] |}.
Proof.
  intros Hget.
  rewrite (list_capabilities_with_store s
             (inl (Raised e), {| store := s'; calls := [GetDocuments "capability"] |}));
    [reflexivity|].
  unfold bind at 1.
  by rewrite (read_items_query_raises {| store := s; calls := [] |} e s' Hget).
Qed.

(** A stored document without a [name] is not a capability record: the
    constructor of [Capability] rejects it and the handler raises. *)
Lemma list_capabilities_malformed_record s (d : gmap string value) docs s' :
  get_documents "capability" s = (inr (ODict d :: docs), s') ->
  d !! "name" = None ->
  exists errors,
    list_capabilities (Loaded (Some s))
    = {| outcome_of := Raise (ValidationError "Capability" (("name", "missing") :: errors));
         database_of := Loaded (Some s');
         calls_of := [GetDocuments "capability"] |}.
Proof.
  intros Hget Hname.
  destruct (serialize_doc_dict d) as (d' & Hser & Hn & Hs & Hi).
  set (errors := (errors_of (validate_str "summary" (d !! "summary"))
                  ++ errors_of (validate_optional_str "icon" (d !! "icon")))%list).
  assert (Hraise : comprehension (fun d => Capability_unpack (serialize_doc d)) (ODict d :: docs)
                   = Raise (ValidationError "Capability" (("name", "missing") :: errors))).
  { cbn [comprehension]. rewrite Hser. unfold Capability_unpack, Capability_init.
    by rewrite Hn, Hs, Hi, Hname. }
  exists errors.
  rewrite (list_capabilities_with_store s
             (inl (ValidationError "Capability" (("name", "missing") :: errors)),
              {| store := s'; calls := [GetDocuments "capability"] |}));
    [reflexivity|].
  unfold bind at 1.
  by rewrite (read_items_invalid_record {| store := s; calls := [] |} _ s' _ Hget Hraise).
Qed.

(** C1, amended. [list_capabilities] returns a sequence that is not
    empty when the store module cannot be loaded or [db] is [None] (the
    static capabilities), when the capability query yields at least one
    capability record, and when that query is empty and the query made
    after seeding yields at least one capability record. *)
Theorem list_capabilities_nonempty (m : Database St) :
  (exists e, m = Unloadable e) \/ m = Loaded None
  \/ (exists s docs s' caps, m = Loaded (Some s) /\
        get_documents "capability" s = (inr docs, s') /\
        docs <> [] /\ Forall2 capability_record docs caps)
  \/ (exists s s1 docs s2 caps, m = Loaded (Some s) /\
        get_documents "capability" s = (inr [], s1) /\
        get_documents "capability" (seeded s1) = (inr docs, s2) /\
        docs <> [] /\ Forall2 capability_record docs caps) ->
  exists caps, outcome_of (list_capabilities m) = Return caps /\ caps <> [].
Proof.
  intros [[e ->] | [-> | [Hstore | Hseed]]].
  - by exists static_capabilities.
  - by exists static_capabilities.
  - destruct Hstore as (s & docs & s' & caps & -> & Hget & Hne & Hrec).
    exists caps. rewrite (existing_records_served s docs s' caps Hget Hne Hrec).
    split; [done|]. intros ->. apply Forall2_length in Hrec. by destruct docs.
  - destruct Hseed as (s & s1 & docs & s2 & caps & -> & Hget1 & Hget2 & Hne & Hrec).
    exists caps.
    rewrite (empty_store_seeded s s1 docs s2 caps Hget1 Hget2 Hrec).
    split; [done|]. intros ->. apply Forall2_length in Hrec. by destruct docs.
Qed.

(** C6. When the import of the store module raises, or [db] is [None],
    [create_inquiry] raises an HTTP exception with status 503 for every
    payload, returns nothing, makes no call to the store and leaves the
    module as it found it. *)
Theorem create_inquiry_without_store (payload : Inquiry.t) (m : Database St) :
  (exists e, m = Unloadable e) \/ m = Loaded None ->
  create_inquiry payload m
  = {| outcome_of :=
         Raise (HTTPException 503
                  match m with
                  | Unloadable _ => "Database not configured"
                  | Loaded _ => "Database not available"
                  end);
       database_of := m;
       calls_of := [] |}.
Proof. intros [[e ->] | ->]; reflexivity. Qed.

(** C7. When the insert made by [create_inquiry] raises,
    [create_inquiry] raises an HTTP exception with status 500 whose
    detail ends with the first 120 characters of the message of the
    exception raised by the insert (all of it when it is shorter). *)
Theorem create_inquiry_insert_raises (payload : Inquiry.t) s e s' :
  create_document "inquiry" (ModelData payload) s = (inl e, s') ->
  exists shown,
    create_inquiry payload (Loaded (Some s))
    = {| outcome_of := Raise (HTTPException 500 ("Failed to save inquiry: " ++ shown));
         database_of := Loaded (Some s');
         calls_of := [CreateDocument "inquiry" (ModelData payload)] |}
    /\ String.length shown = Nat.min 120 (String.length (exc_str e))
    /\ (exists rest, exc_str e = shown ++ rest).
Proof.
  intros Hcreate. exists (str_prefix 120 (exc_str e)). split; [|split].
  - unfold create_inquiry, with_store, try_except, bind, call_create_document. simpl.
    by rewrite Hcreate.
  - apply str_prefix_length_min.
  - apply str_prefix_is_prefix.
Qed.

Lemma create_inquiry_insert_returns (payload : Inquiry.t) s i s' :
  create_document "inquiry" (ModelData payload) s = (inr i, s') ->
  create_inquiry payload (Loaded (Some s))
  = {| outcome_of :=
         Return {| id := i;
                   message := "Inquiry received. Our team will contact you shortly." |};
       database_of := Loaded (Some s');
       calls_of := [CreateDocument "inquiry" (ModelData payload)] |}.
Proof.
  intros Hcreate.
  unfold create_inquiry, with_store, try_except, bind, call_create_document. simpl.
  by rewrite Hcreate.
Qed.
End HandlerTheorems.

(** ** The handlers over the in-memory store *)

Lemma filter_none {A} (P : A -> Prop) `{forall x, Decision (P x)} (l : list A) :
  (forall x, x ∈ l -> ~ P x) -> filter P l = [].
Proof.
  induction l as [|x l IH]; intros Hl; [done|].
  rewrite filter_cons_False by (apply Hl; left).
  apply IH. intros y Hy. apply Hl. by right.
Qed.

Lemma ids_assigned_empty fs : ids_assigned (empty_store fs).
Proof. intros c docs d Hc. simpl in Hc. by rewrite lookup_empty in Hc. Qed.

Lemma ids_assigned_get_documents c st :
  ids_assigned st -> ids_assigned (snd (mem_get_documents c st)).
Proof.
  intros Hst. unfold mem_get_documents.
  by destruct (faults st) as [|[e|] fs].
Qed.

Lemma ids_assigned_insert c data st :
  ids_assigned st ->
  ids_assigned
    {| collections :=
         <[c := (documents c st
                 ++ [<["_id" := VObject "ObjectId" (object_id (next_id st))]> (data_dict data)])%list]>
           (collections st);
       next_id := S (next_id st);
       faults := tail (faults st) |}.
Proof.
  intros Hst c' docs d Hc' Hd. simpl in *.
  destruct (decide (c = c')) as [<-|Hne].
  - rewrite lookup_insert_eq in Hc'. injection Hc' as <-.
    apply elem_of_app in Hd as [Hd|Hd].
    + unfold documents in Hd. destruct (collections st !! c) as [old|] eqn:Hold; simpl in Hd.
      * destruct (Hst c old d Hold Hd) as (k & Hk & Hid). exists k. split; [lia|done].
      * by apply elem_of_nil in Hd.
    + apply list_elem_of_singleton in Hd as ->. exists (next_id st).
      split; [lia|]. by rewrite lookup_insert_eq.
  - rewrite lookup_insert_ne in Hc' by done.
    destruct (Hst c' docs d Hc' Hd) as (k & Hk & Hid). exists k. split; [lia|done].
Qed.

Lemma ids_assigned_create_document c data st :
  ids_assigned st -> ids_assigned (snd (mem_create_document c data st)).
Proof.
  intros Hst. unfold mem_create_document.
  destruct (faults st) as [|[e|] fs] eqn:Hf; simpl; [ | done | ].
  - pose proof (ids_assigned_insert c data st Hst) as Hins. by rewrite Hf in Hins.
  - pose proof (ids_assigned_insert c data st Hst) as Hins. by rewrite Hf in Hins.
Qed.

Lemma documents_with_id_fresh c st :
  ids_assigned st -> documents_with_id c (object_id (next_id st)) st = [].
Proof.
  intros Hst. unfold documents_with_id. apply filter_none. intros d Hd Hid.
  unfold documents in Hd. destruct (collections st !! c) as [old|] eqn:Hold; simpl in Hd.
  - destruct (Hst c old d Hold Hd) as (k & Hk & Hdk).
    rewrite Hdk in Hid. injection Hid as Hid.
    apply (inj pretty) in Hid. lia.
  - by apply elem_of_nil in Hd.
Qed.

Lemma mem_create_document_returns c data st i st' :
  mem_create_document c data st = (inr i, st') ->
  i = object_id (next_id st) /\
  documents c st' = (documents c st ++ [<["_id" := VObject "ObjectId" i]> (data_dict data)])%list.
Proof.
  unfold mem_create_document.
  destruct (faults st) as [|[e|] fs]; intros Heq; [ | done | ];
    injection Heq as <- <-; (split; [done|]);
    unfold documents at 1; simpl; by rewrite lookup_insert_eq.
Qed.

(** C8. On the in-memory store, when the insert succeeds [create_inquiry]
    returns the identifier that the store assigned together with the fixed
    confirmation string; no stored document carried that identifier before,
    and afterwards it is carried by exactly one document of the inquiry
    collection, whose other fields are those of the payload. *)
Theorem create_inquiry_returns_stored_id (payload : Inquiry.t) (st : MemStore) i st' :
  ids_assigned st ->
  create_document "inquiry" (ModelData payload) st = (inr i, st') ->
  create_inquiry payload (Loaded (Some st))
  = {| outcome_of :=
         Return {| id := i;
                   message := "Inquiry received. Our team will contact you shortly." |};
       database_of := Loaded (Some st');
       calls_of := [CreateDocument "inquiry" (ModelData payload)] |}
  /\ (forall c, documents_with_id c i st = [])
  /\ documents_with_id "inquiry" i st'
     = [<["_id" := VObject "ObjectId" i]> (model_dump payload)].
Proof.
  intros Hst Hcreate. split; [by apply create_inquiry_insert_returns|].
  destruct (mem_create_document_returns _ _ _ _ _ Hcreate) as [-> Hdocs].
  split; [intros c; by apply documents_with_id_fresh|].
  unfold documents_with_id at 1. rewrite Hdocs, filter_app.
  fold (documents_with_id "inquiry" (object_id (next_id st)) st).
  rewrite documents_with_id_fresh by done. simpl.
  rewrite filter_singleton_True; [done | exact [] | by rewrite lookup_insert_eq].
Qed.

Lemma documents_insert c docs cols n fs :
  documents c {| collections := <[c := docs]> cols; next_id := n; faults := fs |} = docs.
Proof. unfold documents. simpl. by rewrite lookup_insert_eq. Qed.

Lemma mem_create_document_no_fault c data cols n :
  mem_create_document c data {| collections := cols; next_id := n; faults := [] |}
  = (inr (object_id n),
     {| collections :=
          <[c := (documents c {| collections := cols; next_id := n; faults := [] |}
                  ++ [<["_id" := VObject "ObjectId" (object_id n)]> (data_dict data)])%list]> cols;
        next_id := S n;
        faults := [] |}).
Proof. reflexivity. Qed.

(** A reachable store without capabilities that accepts every operation:
    the four defaults are seeded and returned. *)
Lemma seeding_succeeds (st : MemStore) :
  documents "capability" st = [] ->
  faults st = [] ->
  outcome_of (list_capabilities (Loaded (Some st)))
  = Return (static_capabilities ++ [powder_coating])%list.
Proof.
  destruct st as [cols n fs]. intros Hdocs Hfs. simpl in Hfs. subst fs.
  set (st := {| collections := cols; next_id := n; faults := [] |}) in *.
  assert (Hget : get_documents "capability" st = (inr [], st)).
  { simpl. unfold mem_get_documents. simpl. by rewrite Hdocs. }
  erewrite (empty_store_seeded st st _ _ (static_capabilities ++ [powder_coating])%list Hget).
  - reflexivity.
  - unfold seeded, defaults. cbn [foldl create_document MemStore_DocumentStore get_documents].
    subst st. rewrite !mem_create_document_no_fault. cbn [snd].
    rewrite !mem_create_document_no_fault. cbn [snd]. 
    rewrite !mem_create_document_no_fault. cbn [snd].
    rewrite !mem_create_document_no_fault. cbn [snd].
    rewrite !documents_insert, Hdocs.
    unfold mem_get_documents. cbn [faults tail collections next_id].
    rewrite documents_insert. reflexivity.
  - repeat constructor; apply stored_capability_record.
Qed.

(** C3. A store whose capability query raises: [list_capabilities] hands
    the exception of the query on to its caller instead of answering with
    the static capabilities. *)
Theorem list_capabilities_surfaces_query_error :
  list_capabilities (Loaded (Some (empty_store [Some connection_lost])))
  = {| outcome_of := Raise (Raised connection_lost);
       database_of := Loaded (Some (empty_store []));
       calls_of := [GetDocuments "capability"] |}.
Proof. by apply list_capabilities_query_raises. Qed.

(** C1 fails as stated: on an empty store whose four inserts all raise,
    [list_capabilities] returns the empty sequence. *)
Lemma list_capabilities_returns_empty :
  outcome_of
    (list_capabilities
       (Loaded (Some (empty_store [None; Some connection_lost; Some connection_lost;
                                   Some connection_lost; Some connection_lost; None]))))
  = Return [].
Proof. vm_compute. reflexivity. Qed.

(** The amended C1 on an empty store that accepts every insert. *)
Lemma list_capabilities_nonempty_witness :
  exists caps,
    outcome_of (list_capabilities (Loaded (Some (empty_store [])))) = Return caps /\ caps <> [].
Proof.
  apply list_capabilities_nonempty. right; right; right.
  exists (empty_store []), (empty_store []).
  exists (ODict <$> (imap (fun k d => <["_id" := VObject "ObjectId" (object_id k)]> d) defaults)).
  eexists.
  exists (static_capabilities ++ [powder_coating])%list.
  split; [reflexivity|]. split; [reflexivity|]. split; [vm_compute; reflexivity|].
  split; [done|].
  repeat constructor; apply stored_capability_record.
Defined.

(** C2 on a module whose import raises. *)
Lemma list_capabilities_static_fallback_witness :
  list_capabilities (Unloadable connection_lost : Database MemStore)
  = {| outcome_of := Return static_capabilities;
       database_of := Unloadable connection_lost;
       calls_of := [] |}.
Proof. apply list_capabilities_static_fallback. left. by exists connection_lost. Defined.

(** C4 on a store that holds one capability. *)
Lemma list_capabilities_existing_records_witness :
  list_capabilities (Loaded (Some store_with_welding))
  = {| outcome_of := Return [welding];
       database_of := Loaded (Some store_with_welding);
       calls_of := [GetDocuments "capability"] |}.
Proof.
  apply (list_capabilities_existing_records store_with_welding [ODict welding_record]).
  - reflexivity.
  - done.
  - repeat constructor. apply stored_capability_record.
Defined.

(** C5 on an empty store that refuses the first and the third insert. *)
Lemma list_capabilities_seeds_empty_store_witness :
  outcome_of
    (list_capabilities
       (Loaded (Some (empty_store [None; Some connection_lost; None; Some connection_lost]))))
  = Return [{| Capability.name := "Sheet Metal Fabrication";
               Capability.summary :=
                 "Laser cutting, bending, and assembly for prototypes to production";
               Capability.icon := Some "square" |};
            powder_coating].
Proof.
  destruct (list_capabilities_seeds_empty_store
              (empty_store [None; Some connection_lost; None; Some connection_lost])
              (empty_store [Some connection_lost; None; Some connection_lost])
              [ODict (<["_id" := VObject "ObjectId" (object_id 0)]>
                        (capability_dict "Sheet Metal Fabrication"
                           "Laser cutting, bending, and assembly for prototypes to production"
                           "square"));
               ODict (<["_id" := VObject "ObjectId" (object_id 1)]>
                        (capability_dict "Powder Coating"
                           "Durable finishes with a wide range of colors and textures"
                           "paintbrush"))]
              {| collections := collections (seeded (empty_store [Some connection_lost; None; Some connection_lost])); next_id := 2; faults := [] |}
              [{| Capability.name := "Sheet Metal Fabrication";
               Capability.summary :=
                 "Laser cutting, bending, and assembly for prototypes to production";
               Capability.icon := Some "square" |};
            powder_coating]) as [-> _].
  - reflexivity.
  - vm_compute; reflexivity.
  - repeat constructor; apply stored_capability_record.
  - reflexivity.
Defined.

(** C6 on a module whose [db] is [None]. *)
Lemma create_inquiry_without_store_witness :
  create_inquiry sample_inquiry (Loaded None : Database MemStore)
  = {| outcome_of := Raise (HTTPException 503 "Database not available");
       database_of := Loaded None;
       calls_of := [] |}.
Proof. apply (create_inquiry_without_store sample_inquiry (Loaded None)). by right. Defined.

(** C7 on a store whose insert raises with a message of 154 characters. *)
Lemma create_inquiry_insert_raises_witness :
  exists shown,
    create_inquiry sample_inquiry (Loaded (Some (empty_store [Some duplicate_key])))
    = {| outcome_of := Raise (HTTPException 500 ("Failed to save inquiry: " ++ shown));
         database_of := Loaded (Some (empty_store []));
         calls_of := [CreateDocument "inquiry" (ModelData sample_inquiry)] |}
    /\ String.length shown = 120%nat
    /\ (exists rest, long_message = shown ++ rest).
Proof.
  exact (create_inquiry_insert_raises sample_inquiry
           (empty_store [Some duplicate_key]) duplicate_key (empty_store []) eq_refl).
Defined.

(** C8 on the first insert into an empty store. *)
Lemma create_inquiry_returns_stored_id_witness :
  outcome_of (create_inquiry sample_inquiry (Loaded (Some (empty_store []))))
  = Return {| id := "0"; message := "Inquiry received. Our team will contact you shortly." |}
  /\ documents_with_id "inquiry" "0"
       (snd (mem_create_document "inquiry" (ModelData sample_inquiry) (empty_store [])))
     = [<["_id" := VObject "ObjectId" "0"]> (model_dump sample_inquiry)].
Proof.
  assert (Hcreate : create_document "inquiry" (ModelData sample_inquiry) (empty_store [])
                    = (inr "0", snd (mem_create_document "inquiry" (ModelData sample_inquiry)
                                       (empty_store []))))
    by (vm_compute; reflexivity).
  destruct (create_inquiry_returns_stored_id sample_inquiry (empty_store []) "0" _
              (ids_assigned_empty []) Hcreate) as (-> & _ & Hstored).
  split; [reflexivity | exact Hstored].
Defined.

(** C9. In the output of [get_schema], the schema of [Capability] lists
    [name] and [summary], and not [icon], as required; [icon] is among its
    properties, admits [null] and defaults to it. *)
Theorem get_schema_capability_fields :
  exists capability properties icon,
    json_get "capability" get_schema = Some capability /\
    json_get "required" capability = Some (JArray [JString "name"; JString "summary"]) /\
    json_get "properties" capability = Some properties /\
    json_keys properties = ["name"; "summary"; "icon"] /\
    json_get "icon" properties = Some icon /\
    json_get "anyOf" icon
    = Some (JArray [JObject [("type", JString "string")]; JObject [("type", JString "null")]]) /\
    json_get "default" icon = Some JNull /\
    required_fields Capability = ["name"; "summary"] /\
    optional_fields Capability = ["icon"].
Proof. do 3 eexists. vm_compute. repeat split. Qed.

(** C10. For a dictionary, [serialize_doc] returns a dictionary without
    the key ["_id"]; when the argument had that key, the result maps ["id"]
    to the string form of its value, and when it had not, the result is the
    argument; every key other than ["_id"] and ["id"] maps to what it mapped
    to in the argument.  Anything that is not a dictionary is returned as it
    is. *)
Theorem serialize_doc_spec (doc : pyobj) :
  match doc with
  | ODict d =>
      exists d', serialize_doc doc = ODict d' /\
        d' !! "_id" = None /\
        match d !! "_id" with
        | Some oid => d' !! "id" = Some (VStr (py_str oid))
        | None => d' = d
        end /\
        (forall k, k <> "_id" -> k <> "id" -> d' !! k = d !! k)
  | OOther _ => serialize_doc doc = doc
  end.
Proof.
  destruct doc as [d|v]; [|reflexivity]. unfold serialize_doc.
  destruct (d !! "_id") as [oid|] eqn:Hid; eexists; (split; [reflexivity|]).
  - split; [|split].
    + rewrite lookup_insert_ne by done. apply lookup_delete_eq.
    + apply lookup_insert_eq.
    + intros k Hk1 Hk2. rewrite lookup_insert_ne by done. by rewrite lookup_delete_ne.
  - by repeat split.
Qed.

(** * Further properties *)

(** ** [serialize_doc] *)

(** X1. Serializing a document twice gives what serializing it once gives. *)
Theorem serialize_doc_idempotent (doc : pyobj) :
  serialize_doc (serialize_doc doc) = serialize_doc doc.
Proof.
  destruct doc as [d|v]; [|reflexivity]. unfold serialize_doc.
  destruct (d !! "_id") as [oid|] eqn:Hid.
  - rewrite lookup_insert_ne by done. by rewrite lookup_delete_eq.
  - by rewrite Hid.
Qed.

(** X2. The keys of a serialized dictionary are those of the argument with
    ["_id"] replaced by ["id"] when ["_id"] was among them, and the same keys
    otherwise; the result never has more keys than the argument. *)
Theorem serialize_doc_keys (d : gmap string value) :
  exists d', serialize_doc (ODict d) = ODict d' /\
    dom d' = (if decide ("_id" ∈ dom d) then {["id"]} ∪ dom d ∖ {["_id"]} else dom d) /\
    (size d' <= size d)%nat.
Proof.
  unfold serialize_doc. destruct (d !! "_id") as [oid|] eqn:Hid; eexists; (split; [reflexivity|]).
  - rewrite decide_True by (apply elem_of_dom; by exists oid). split.
    + by rewrite dom_insert_L, dom_delete_L.
    + rewrite map_size_insert, map_size_delete, Hid.
      assert (0 < size d)%nat.
      { destruct (decide (size d = 0%nat)) as [Hz|]; [|lia].
        apply map_size_empty_iff in Hz. subst d. by rewrite lookup_empty in Hid. }
      destruct (delete "_id" d !! "id"); unfold Datatypes.id; lia.
  - rewrite decide_False by (by apply not_elem_of_dom). done.
Qed.

(** X3. Building a [Capability] from a serialized document gives what
    building it from the document itself gives: the key that [serialize_doc]
    renames is not a field of [Capability]. *)
Theorem serialize_doc_transparent (d : gmap string value) :
  Capability_unpack (serialize_doc (ODict d)) = Capability_init d.
Proof.
  destruct (serialize_doc_dict d) as (d' & -> & Hn & Hs & Hi).
  unfold Capability_unpack, Capability_init. by rewrite Hn, Hs, Hi.
Qed.

(** ** Validation of a capability *)




Lemma validate_str_errors loc o f ty :
  (f, ty) ∈ errors_of (validate_str loc o) <->
  f = loc /\ (ty = "missing" /\ o = None
              \/ ty = "string_type" /\ exists v, o = Some v /\ forall s, v <> VStr s).
Proof.
  unfold validate_str. split.
  - destruct o as [[| | |s|]|]; simpl; intros Hin;
      try (by apply elem_of_nil in Hin);
      apply list_elem_of_singleton in Hin; injection Hin as -> ->; (split; [done|]);
      try (by left); right; (split; [done|]); eexists; (split; [done|]); done.
  - intros [-> [[-> ->] | [-> (v & -> & Hv)]]]; [by apply list_elem_of_singleton|].
    destruct v as [| | |s|]; try (by apply list_elem_of_singleton).
    by destruct (Hv s).
Qed.

Lemma validate_optional_str_errors loc o f ty :
  (f, ty) ∈ errors_of (validate_optional_str loc o) -> f = loc /\ ty = "string_type".
Proof.
  unfold validate_optional_str. destruct o as [[| | |s|]|]; simpl.
  all: rewrite ?list_elem_of_singleton, ?elem_of_nil; try done.
  all: by intros [= -> ->].
Qed.

Lemma validate_str_inl loc o es : validate_str loc o = inl es -> es <> [].
Proof. unfold validate_str. destruct o as [[| | |s|]|]; by intros [= <-]. Qed.

Lemma validate_optional_str_inl loc o es : validate_optional_str loc o = inl es -> es <> [].
Proof. unfold validate_optional_str. destruct o as [[| | |s|]|]; by intros [= <-]. Qed.

(** X5. When the constructor of [Capability] does not return, it raises a
    validation error for [Capability] with at least one entry; the entries
    of type [missing] are those of the fields [name] and [summary] that are
    absent, and an absent [icon] is never reported. *)
Theorem Capability_init_rejects (d : gmap string value) :
  (exists c, Capability_init d = Return c)
  \/ (exists errors,
        Capability_init d = Raise (ValidationError "Capability" errors) /\
        errors <> [] /\
        forall f, (f, "missing") ∈ errors <-> (f = "name" \/ f = "summary") /\ d !! f = None).
Proof.
  unfold Capability_init.
  remember (validate_str "name" (d !! "name")) as n eqn:Hn.
  remember (validate_str "summary" (d !! "summary")) as s eqn:Hs.
  remember (validate_optional_str "icon" (d !! "icon")) as i eqn:Hi.
  assert (Hmissing : forall f,
    (f, "missing") ∈ (errors_of n ++ errors_of s ++ errors_of i)%list
    <-> (f = "name" \/ f = "summary") /\ d !! f = None).
  { intros f. rewrite !elem_of_app. subst n s. rewrite !validate_str_errors. split.
    - intros [(-> & [[_ Hn] | [? _]]) | [(-> & [[_ Hs] | [? _]]) | Hin]]; try done; auto.
      subst i. by apply validate_optional_str_errors in Hin as [_ ?].
    - intros [[-> | ->] Hf]; [left | right; left]; (split; [done|]); left; by rewrite Hf. }
  symmetry in Hn, Hs, Hi.
  destruct n as [en|n']; [|destruct s as [es|s']; [|destruct i as [ei|i']]].
  - right. exists (en ++ errors_of s ++ errors_of i)%list.
    split; [by destruct s, i|]. split; [|exact Hmissing].
    simpl. apply validate_str_inl in Hn. by destruct en.
  - right. exists ([] ++ es ++ errors_of i)%list.
    split; [by destruct i|]. split; [|exact Hmissing].
    simpl. apply validate_str_inl in Hs. by destruct es.
  - right. eexists. split; [reflexivity|]. split; [|exact Hmissing].
    simpl. apply validate_optional_str_inl in Hi. by destruct ei.
  - left. eauto.
Qed.

(** ** More on the handlers over an arbitrary store *)

Lemma string_length_app (s1 s2 : string) :
  String.length (s1 ++ s2) = (String.length s1 + String.length s2)%nat.
Proof.
  induction s1 as [|c s1 IH]; [done|].
  change (S (String.length (s1 ++ s2)) = S (String.length s1 + String.length s2)).
  by rewrite IH.
Qed.





Section MoreHandlerTheorems.
Context {St : Type} `{DocumentStore St}.

(** What a read leaves behind, whatever it returns. *)
Lemma read_items_session σ :
  snd (read_items σ)
  = {| store := snd (get_documents "capability" (store σ));
       calls := calls σ ++ [GetDocuments "capability"] |}.
Proof.
  unfold read_items, bind, propagate, try_except, call_get_documents.
  destruct (get_documents "capability" (store σ)) as [[e|docs] s']; [done|]. simpl.
  by destruct (comprehension _ docs).
Qed.

Lemma read_items_outcome σ :
  fst (read_items σ)
  = match fst (get_documents "capability" (store σ)) with
    | inl e => inl (Raised e)
    | inr docs =>
        match comprehension (fun d => Capability_unpack (serialize_doc d)) docs with
        | Return items => inr items
        | Raise e => inl e
        end
    end.
Proof.
  unfold read_items, bind, propagate, try_except, call_get_documents.
  destruct (get_documents "capability" (store σ)) as [[e|docs] s']; [done|]. simpl.
  by destruct (comprehension _ docs).
Qed.

(** The handler in terms of its reads: the second one is made, after the
    seeding loop, when the first one returned no item. *)
Lemma list_capabilities_reads s :
  list_capabilities (Loaded (Some s))
  = let first := read_items {| store := s; calls := [] |} in
    let second :=
      read_items {| store := seeded (store (snd first));
                    calls := calls (snd first) ++ seed_calls |} in
    match fst first with
    | inr [] =>
        {| outcome_of := match fst second with inl e => Raise e | inr a => Return a end;
           database_of := Loaded (Some (store (snd second)));
           calls_of := calls (snd second) |}
    | inr items =>
        {| outcome_of := Return items;
           database_of := Loaded (Some (store (snd first)));
           calls_of := calls (snd first) |}
    | inl e =>
        {| outcome_of := Raise e;
           database_of := Loaded (Some (store (snd first)));
           calls_of := calls (snd first) |}
    end.
Proof.
  unfold list_capabilities, with_store. cbn [import_database]. cbv zeta.
  unfold bind at 1.
  destruct (read_items {| store := s; calls := [] |}) as [[e|[|c items]] σ1];
    cbn [fst snd]; [done| |done].
  rewrite decide_True by done.
  unfold bind at 1. rewrite seed_defaults_runs. unfold bind at 1. cbn [store calls].
  by destruct (read_items _) as [[e|items] σ2].
Qed.

(** X6. The calls that [list_capabilities] makes are decided by its first
    query: none without a handle; the query alone when it raises or yields
    documents; the query, the four inserts into [capability] and a second
    query when it yields no document.  It makes no other call. *)
Theorem list_capabilities_calls (m : Database St) :
  calls_of (list_capabilities m)
  = match m with
    | Loaded (Some s) =>
        match fst (get_documents "capability" s) with
        | inr [] =>
            ([GetDocuments "capability"] ++ seed_calls ++ [GetDocuments "capability"])%list
        | _ => [GetDocuments "capability"]
        end
    | _ => []
    end.
Proof.
  destruct m as [e|[s|]]; try reflexivity.
  rewrite list_capabilities_reads. cbv zeta.
  rewrite !read_items_session, read_items_outcome. simpl.
  destruct (fst (get_documents "capability" s)) as [e|docs]; [done|].
  destruct (comprehension _ docs) as [[|c items]|e] eqn:Hitems; simpl.
  - apply comprehension_length in Hitems. by destruct docs.
  - by destruct docs.
  - by destruct docs.
Qed.

(** X7. When the first query is empty and the query made after seeding
    raises, [list_capabilities] raises that exception, and the store is left
    as the seeding loop and the failed query left it. *)
Theorem list_capabilities_requery_raises s s1 e s2 :
  get_documents "capability" s = (inr [], s1) ->
  get_documents "capability" (seeded s1) = (inl e, s2) ->
  list_capabilities (Loaded (Some s))
  = {| outcome_of := Raise (Raised e);
       database_of := Loaded (Some s2);
       calls_of :=
         ([GetDocuments "capability"] ++ seed_calls ++ [GetDocuments "capability"])%list |}.
Proof.
  intros Hget1 Hget2. rewrite list_capabilities_reads. cbv zeta.
  rewrite !read_items_session, !read_items_outcome. cbn [store calls].
  rewrite Hget1. cbn [fst snd comprehension]. by rewrite Hget2.
Qed.



(** X10. After a call that seeded the store, on a store whose next query
    yields the same documents again, a second call returns the same
    capabilities and makes no insert. *)
Theorem list_capabilities_seeds_once s s1 docs s2 caps s3 :
  get_documents "capability" s = (inr [], s1) ->
  get_documents "capability" (seeded s1) = (inr docs, s2) ->
  docs <> [] ->
  Forall2 capability_record docs caps ->
  get_documents "capability" s2 = (inr docs, s3) ->
  list_capabilities (database_of (list_capabilities (Loaded (Some s))))
  = {| outcome_of := Return caps;
       database_of := Loaded (Some s3);
       calls_of := [GetDocuments "capability"] |}.
Proof.
  intros Hget1 Hget2 Hne Hrec Hget3.
  rewrite (empty_store_seeded s s1 docs s2 caps Hget1 Hget2 Hrec). cbn [database_of].
  exact (existing_records_served s2 docs s3 caps Hget3 Hne Hrec).
Qed.

Lemma superset_capability_record n s i (stored : gmap string value) :
  capability_dict n s i ⊆ stored ->
  capability_record (ODict stored)
    {| Capability.name := n; Capability.summary := s; Capability.icon := Some i |}.
Proof.
  intros Hsub. exists stored. split; [done|]. simpl.
  repeat split; (eapply lookup_weaken; [|exact Hsub]); unfold capability_dict;
    by simplify_map_eq.
Qed.

(** X11. When the query made after seeding yields the four defaults, each
    possibly with keys added by the store, [list_capabilities] returns the
    three static capabilities followed by Powder Coating. *)
Theorem list_capabilities_returns_seeds s s1 docs s2 :
  get_documents "capability" s = (inr [], s1) ->
  get_documents "capability" (seeded s1) = (inr docs, s2) ->
  Forall2 (fun doc d => exists stored, doc = ODict stored /\ d ⊆ stored) docs defaults ->
  outcome_of (list_capabilities (Loaded (Some s)))
  = Return (static_capabilities ++ [powder_coating])%list.
Proof.
  intros Hget1 Hget2 Hdocs.
  rewrite (empty_store_seeded s s1 docs s2 (static_capabilities ++ [powder_coating])%list
             Hget1 Hget2); [done|].
  unfold defaults in Hdocs.
  repeat (apply Forall2_cons_inv_r in Hdocs as (? & ? & (? & -> & ?) & Hdocs & ->)).
  apply Forall2_nil_inv_r in Hdocs as ->.
  repeat constructor; by apply superset_capability_record.
Qed.

Lemma create_inquiry_insert_fails (payload : Inquiry.t) s e s' :
  create_document "inquiry" (ModelData payload) s = (inl e, s') ->
  create_inquiry payload (Loaded (Some s))
  = {| outcome_of :=
         Raise (HTTPException 500
                  ("Failed to save inquiry: " ++ str_prefix 120 (exc_str e)));
       database_of := Loaded (Some s');
       calls_of := [CreateDocument "inquiry" (ModelData payload)] |}.
Proof.
  intros Hcreate.
  unfold create_inquiry, with_store, try_except, bind, call_create_document. simpl.
  by rewrite Hcreate.
Qed.

(** X12. [create_inquiry] ends in one of three ways: it returns an identifier
    with the fixed message after one insert into [inquiry]; it raises an
    HTTP exception 503 without any call; or it raises an HTTP exception 500
    with a detail of at most 144 characters after one insert into
    [inquiry].  It never queries and never raises anything else. *)
Theorem create_inquiry_outcomes (payload : Inquiry.t) (m : Database St) :
  (exists i,
     outcome_of (create_inquiry payload m)
     = Return {| id := i; message := "Inquiry received. Our team will contact you shortly." |}
     /\ calls_of (create_inquiry payload m) = [CreateDocument "inquiry" (ModelData payload)])
  \/ (exists detail,
        outcome_of (create_inquiry payload m) = Raise (HTTPException 503 detail)
        /\ calls_of (create_inquiry payload m) = []
        /\ database_of (create_inquiry payload m) = m)
  \/ (exists detail,
        outcome_of (create_inquiry payload m) = Raise (HTTPException 500 detail)
        /\ (String.length detail <= 144)%nat
        /\ calls_of (create_inquiry payload m) = [CreateDocument "inquiry" (ModelData payload)]).
Proof.
  destruct m as [e|[s|]].
  - right; left. by eexists.
  - destruct (create_document "inquiry" (ModelData payload) s) as [[e|i] s'] eqn:Hcreate.
    + right; right. eexists.
      rewrite (create_inquiry_insert_fails payload s e s' Hcreate). cbn [outcome_of calls_of].
      split; [reflexivity|]. split; [|reflexivity].
      rewrite string_length_app. pose proof (str_prefix_length 120 (exc_str e)) as Hshown.
      change (String.length "Failed to save inquiry: ") with 24%nat. lia.
    + left. exists i. by rewrite (create_inquiry_insert_returns payload s i s' Hcreate).
  - right; left. by eexists.
Qed.
End MoreHandlerTheorems.

(** ** [test_database] *)

Section TestDatabaseTheorems.
Context {St : Type} `{DatabaseHandle St}.

(** X13. The fields [database_url] and [database_name] of the answer of
    [test_database] depend on the environment alone: each tells whether its
    variable is set to a non-empty string, whatever the state of the
    database, and the name of the database is never shown. *)
Theorem test_database_env_flags (m : Database St) (environ : gmap string string) :
  Diagnostics.database_url (fst (test_database m environ))
  = Some (if truthy (environ !! "DATABASE_URL") then "✅ Set" else "❌ Not Set")
  /\ Diagnostics.database_name (fst (test_database m environ))
     = Some (if truthy (environ !! "DATABASE_NAME") then "✅ Set" else "❌ Not Set").
Proof.
  unfold test_database, probe_database.
  destruct m as [e|[h|]]; cbn [import_database].
  - by destruct (is_ImportError e).
  - by destruct (list_collection_names h) as [[e|names] h'].
  - done.
Qed.

(** X14. The field [collections] holds the first ten names that listing
    the collections gives, and is empty when there is no handle or when the
    listing raises. *)
Theorem test_database_collections (m : Database St) (environ : gmap string string) :
  Diagnostics.collections (fst (test_database m environ))
  = match m with
    | Loaded (Some h) =>
        match fst (list_collection_names h) with
        | inr names => take 10 names
        | inl _ => []
        end
    | _ => []
    end
  /\ (length (Diagnostics.collections (fst (test_database m environ))) <= 10)%nat.
Proof.
  unfold test_database, probe_database.
  destruct m as [e|[h|]]; cbn [import_database].
  - destruct (is_ImportError e); simpl; split; [done|lia| done | lia].
  - destruct (list_collection_names h) as [[e|names] h']; simpl; (split; [done|]); [lia|].
    rewrite length_take. lia.
  - simpl. split; [done|lia].
Qed.

(** X15. The answer says [Connected] exactly when the module is loaded with
    a handle, also when listing the collections raises; it says
    [Connected & Working] exactly when the listing succeeds as well. *)
Theorem test_database_status (m : Database St) (environ : gmap string string) :
  (Diagnostics.connection_status (fst (test_database m environ)) = "Connected"
   <-> exists h, m = Loaded (Some h))
  /\ (Diagnostics.database (fst (test_database m environ)) = "✅ Connected & Working"
      <-> exists h names, m = Loaded (Some h) /\ fst (list_collection_names h) = inr names).
Proof.
  unfold test_database, probe_database.
  destruct m as [e|[h|]]; cbn [import_database].
  - split; split.
    + destruct (is_ImportError e); intros Heq; vm_compute in Heq; discriminate.
    + by intros [h [=]].
    + destruct (is_ImportError e); intros Heq; vm_compute in Heq; discriminate.
    + by intros (h & names & [=] & _).
  - destruct (list_collection_names h) as [[e|names] h'] eqn:Hlist; cbn.
    + split; [split; eauto|]. split.
      * intros Heq. vm_compute in Heq. discriminate.
      * intros (h0 & names & [= <-] & Hnames). by rewrite Hlist in Hnames.
    + split; split; eauto. intros _. exists h, names. by rewrite Hlist.
  - split; split.
    + intros Heq; vm_compute in Heq; discriminate.
    + by intros [h [=]].
    + intros Heq; vm_compute in Heq; discriminate.
    + by intros (h & names & [=] & _).
Qed.

(** X16. When listing the collections raises, [test_database] still answers:
    the field [database] ends with the first 50 characters of the message
    of the exception and the connection is reported as [Connected]. *)
Theorem test_database_listing_raises (h : St) e h' (environ : gmap string string) :
  list_collection_names h = (inl e, h') ->
  exists shown,
    Diagnostics.database (fst (test_database (Loaded (Some h)) environ))
    = "⚠️  Connected but Error: " ++ shown
    /\ String.length shown = Nat.min 50 (String.length (exc_str e))
    /\ (exists rest, exc_str e = shown ++ rest)
    /\ Diagnostics.connection_status (fst (test_database (Loaded (Some h)) environ))
       = "Connected"
    /\ snd (test_database (Loaded (Some h)) environ) = Loaded (Some h').
Proof.
  intros Hlist. exists (str_prefix 50 (exc_str e)).
  split; [|split; [apply str_prefix_length_min|split; [apply str_prefix_is_prefix|]]];
    unfold test_database, probe_database; cbn [import_database]; by rewrite Hlist.
Qed.

End TestDatabaseTheorems.

(** ** [get_schema] *)

(** X18. [get_schema] answers with the schemas of the four models under the
    keys [user], [product], [capability] and [inquiry]; each lists every
    declared field among its properties, in declaration order, and the
    fields declared with [Field(...)] as required. *)
Theorem get_schema_models :
  json_keys get_schema = ["user"; "product"; "capability"; "inquiry"]
  /\ (forall key c,
       (key, c) ∈ [("user", User); ("product", Product);
                   ("capability", Capability); ("inquiry", Inquiry)] ->
       exists schema properties,
         json_get key get_schema = Some schema /\
         json_get "title" schema = Some (JString (class_name c)) /\
         json_get "properties" schema = Some properties /\
         json_keys properties = field_name <$> class_fields c /\
         json_get "required" schema = Some (JArray (JString <$> required_fields c)))
  /\ required_fields User = ["name"; "email"; "address"]
  /\ required_fields Product = ["title"; "price"; "category"]
  /\ required_fields Inquiry = ["name"; "email"; "message"].
Proof.
  split; [reflexivity|]. split; [|by vm_compute].
  intros key c Hin.
  repeat (apply elem_of_cons in Hin as [[= -> ->]|Hin]);
    [..|by apply elem_of_nil in Hin]; do 2 eexists; vm_compute; repeat split.
Qed.

(** ** The further properties at sample inputs *)

(** X7 on an empty store whose second query raises. *)
Lemma list_capabilities_requery_raises_witness :
  list_capabilities
    (Loaded (Some (empty_store [None; None; None; None; None; Some connection_lost])))
  = {| outcome_of := Raise (Raised connection_lost);
       database_of := Loaded (Some (seeded (empty_store [])));
       calls_of :=
         ([GetDocuments "capability"] ++ seed_calls ++ [GetDocuments "capability"])%list |}.
Proof.
  apply (list_capabilities_requery_raises
           (empty_store [None; None; None; None; None; Some connection_lost])
           (empty_store [None; None; None; None; Some connection_lost])).
  - reflexivity.
  - vm_compute. reflexivity.
Defined.



(** X10 on an empty store that accepts every operation. *)
Lemma list_capabilities_seeds_once_witness :
  list_capabilities (database_of (list_capabilities (Loaded (Some (empty_store [])))))
  = {| outcome_of := Return (static_capabilities ++ [powder_coating])%list;
       database_of := Loaded (Some (seeded (empty_store [])));
       calls_of := [GetDocuments "capability"] |}.
Proof.
  apply (list_capabilities_seeds_once (empty_store []) (empty_store [])
           (ODict <$> imap (fun k d => <["_id" := VObject "ObjectId" (object_id k)]> d) defaults)
           (seeded (empty_store []))).
  - reflexivity.
  - vm_compute. reflexivity.
  - done.
  - repeat constructor; apply stored_capability_record.
  - vm_compute. reflexivity.
Defined.

(** X11 on an empty store that accepts every operation. *)
Lemma list_capabilities_returns_seeds_witness :
  outcome_of (list_capabilities (Loaded (Some (empty_store []))))
  = Return (static_capabilities ++ [powder_coating])%list.
Proof.
  apply (list_capabilities_returns_seeds (empty_store []) (empty_store [])
           (ODict <$> imap (fun k d => <["_id" := VObject "ObjectId" (object_id k)]> d) defaults)
           (seeded (empty_store []))).
  - reflexivity.
  - vm_compute. reflexivity.
  - repeat constructor; (eexists; split; [reflexivity|]); apply insert_subseteq; reflexivity.
Defined.

(** X16 on a handle whose listing raises with a message of 154 characters. *)
Lemma test_database_listing_raises_witness :
  exists shown,
    Diagnostics.database
      (fst (test_database
              (Loaded (Some {| table_name := Some "site"; table_listing := inl duplicate_key |}))
              ∅))
    = "⚠️  Connected but Error: " ++ shown
    /\ String.length shown = 50%nat
    /\ (exists rest, long_message = shown ++ rest)
    /\ Diagnostics.connection_status
         (fst (test_database
                 (Loaded (Some {| table_name := Some "site"; table_listing := inl duplicate_key |}))
                 ∅))
       = "Connected"
    /\ snd (test_database
              (Loaded (Some {| table_name := Some "site"; table_listing := inl duplicate_key |}))
              ∅)
       = Loaded (Some {| table_name := Some "site"; table_listing := inl duplicate_key |}).
Proof.
  exact (test_database_listing_raises
           {| table_name := Some "site"; table_listing := inl duplicate_key |}
           duplicate_key _ ∅ eq_refl).
Defined.
